(** * Managed-network workspace tutorial and sweep-job document

    A verification development for the two artifacts of the repository:

    - [sdk/python/resources/workspace/workspace-managed-network.ipynb], a
      notebook that drives the workspace management SDK through a fixed
      sequence of remote operations;
    - a static sweep-job document (YAML).

    The notebook is embedded as a program in a small state-and-exception
    monad over an abstract remote service; the YAML document is embedded as
    a record value.  The repository has no configuration validator: the
    notebook hands every value to the SDK as it is.  The checks the
    specification gives for rule names and rule kinds are modelled from
    its words, in [Module Validator]. *)

From Stdlib Require Import String List Bool Arith Lia QArith.
From Stdlib Require Import ZArith NArith Ascii Zify.
Import ListNotations.
Local Close Scope Q_scope.
Local Open Scope string_scope.
Local Open Scope list_scope.

(** ** Entities of [azure.ai.ml.entities] used by the notebook *)

(** [IsolationMode]: the notebook uses [ALLOW_INTERNET_OUTBOUND] and
    [ALLOW_ONLY_APPROVED_OUTBOUND]; its prose also names [Disabled]. *)
Inductive IsolationMode : Type :=
| DISABLED
| ALLOW_INTERNET_OUTBOUND
| ALLOW_ONLY_APPROVED_OUTBOUND.

Inductive RuleStatus : Type := Active | Inactive.
Inductive RuleCategory : Type := UserDefined | Required.

(** The three destinations, with the keyword arguments the notebook passes
    to their constructors.  [service_resource_id] is read from
    [ws_mvnet.storage_account], which may be absent, hence an option. *)
Inductive Destination : Type :=
| ServiceTag (service_tag protocol port_ranges : string)
| Fqdn (destination : string)
| PrivateEndpoint (service_resource_id : option string)
                  (subresource_target : string) (spark_enabled : bool).

(** An outbound rule as the service shows it: besides its name and
    destination it has a [status] and a [category]. *)
Record OutboundRule : Type := mkRule {
  name : string;
  dest : Destination;
  status : option RuleStatus;
  category : option RuleCategory
}.

(** The rule classes belong to the SDK, not to the repository.  What their
    constructors put in [status] and [category] when the caller passes
    neither is a parameter of the development. *)
Class RuleDefaults : Type := {
  default_status : option RuleStatus;
  default_category : option RuleCategory
}.

(** Constructor calls as the notebook writes them (cells 3.1, 3.2, 3.3):
    only the listed keyword arguments are given, so [status] and
    [category] are the defaults; [spark_enabled] is optional with default
    false (cell 3.3, prose). *)
Definition ServiceTagDestination {defaults : RuleDefaults}
  (name service_tag protocol port_ranges : string) : OutboundRule :=
  mkRule name (ServiceTag service_tag protocol port_ranges)
         default_status default_category.

Definition FqdnDestination {defaults : RuleDefaults}
  (name destination : string) : OutboundRule :=
  mkRule name (Fqdn destination) default_status default_category.

Definition PrivateEndpointDestination {defaults : RuleDefaults}
  (name : string) (service_resource_id : option string)
  (subresource_target : string) : OutboundRule :=
  mkRule name (PrivateEndpoint service_resource_id subresource_target false)
         default_status default_category.

(** The defaults of the constructors of the azure-ai-ml package: a new
    rule has no status, and the category user-defined. *)
#[export] Instance azure_ai_ml_defaults : RuleDefaults :=
  {| default_status := None; default_category := Some UserDefined |}.

(** [ManagedNetwork(isolation_mode=..., outbound_rules=[...])]: the rules
    are a Python list, so order and repeated names are representable. *)
Record ManagedNetwork : Type := mkManagedNetwork {
  isolation_mode : IsolationMode;
  outbound_rules : list OutboundRule
}.

(** [Workspace(name=..., location=..., managed_network=...)]; a workspace
    returned by the service also has a [storage_account]. *)
Record Workspace : Type := mkWorkspace {
  ws_name : string;
  location : string;
  managed_network : option ManagedNetwork;
  storage_account : option string
}.

Definition is_private_endpoint (r : OutboundRule) : bool :=
  match dest r with
  | PrivateEndpoint _ _ _ => true
  | _ => false
  end.

Definition rule_names (rules : list OutboundRule) : list string :=
  map name rules.

Definition name_in (n : string) (names : list string) : bool :=
  existsb (String.eqb n) names.

(** ** The validator *)

Module Validator.

(** Modelled from the spec: the three failures of section 4.1. *)
Inductive ValidationError : Type :=
| DuplicateRuleName
| InvalidTransition
| UnsupportedRuleForMode.

(** Modelled from the spec: [Result<(), ValidationError>]. *)
Inductive Result (A : Type) : Type :=
| Ok (a : A)
| Err (e : ValidationError).
Arguments Ok {A} a.
Arguments Err {A} e.

(** The repository has no validator: the notebook hands every value
    directly to the SDK.  The checks below follow section 4.1 of the
    specification. *)

(** Modelled from the spec: "two rules share a name". *)
Fixpoint has_duplicate (names : list string) : bool :=
  match names with
  | [] => false
  | n :: rest => name_in n rest || has_duplicate rest
  end.

(** Modelled from the spec: a [ServiceTagRule] or [FqdnRule] is not
    supported while the mode is [ALLOW_INTERNET_OUTBOUND]; a
    [PrivateEndpointRule] is permitted under any mode. *)
Definition unsupported_for_mode (mode : IsolationMode) (r : OutboundRule) : bool :=
  match mode with
  | ALLOW_INTERNET_OUTBOUND => negb (is_private_endpoint r)
  | _ => false
  end.

(** Modelled from the spec: [validate(config) -> Result<(), ValidationError>],
    the failures checked in the order section 4.1 lists them (the
    transition of the mode is not a property of one configuration and is
    not checked here). *)
Definition validate (config : ManagedNetwork) : Result unit :=
  if has_duplicate (rule_names (outbound_rules config))
  then Err DuplicateRuleName
  else if existsb (unsupported_for_mode (isolation_mode config))
                  (outbound_rules config)
  then Err UnsupportedRuleForMode
  else Ok tt.

(** Modelled from the spec: the pre-flight check of adding one rule to a
    configuration, the same two failures in the same order, looking at the
    new rule only. *)
Definition check_rule (config : ManagedNetwork) (rule : OutboundRule) : Result unit :=
  if name_in (name rule) (rule_names (outbound_rules config))
  then Err DuplicateRuleName
  else if unsupported_for_mode (isolation_mode config) rule
  then Err UnsupportedRuleForMode
  else Ok tt.

(** Modelled from the spec: the configuration after a rule is added;
    nothing else changes. *)
Definition with_rule (config : ManagedNetwork) (rule : OutboundRule) : ManagedNetwork :=
  mkManagedNetwork (isolation_mode config) (outbound_rules config ++ [rule]).

(** Modelled from the spec: adding a rule to the pending desired state
    (section 3, lifecycle), guarded by its check. *)
Definition add_rule (config : ManagedNetwork) (rule : OutboundRule)
  : Result ManagedNetwork :=
  match check_rule config rule with
  | Ok _ => Ok (with_rule config rule)
  | Err e => Err e
  end.

End Validator.

(** ** The management API, as the notebook calls it *)

(** What [begin_provision_network(...).result()] returns; the notebook only
    prints it. *)
Record ProvisionStatus : Type := mkProvisionStatus {
  network_status : RuleStatus;
  spark_ready : bool
}.

(** One constructor per SDK operation the notebook invokes, indexed by the
    type of what the operation returns. *)
Inductive Request : Type -> Type :=
| WorkspaceCreate (ws : Workspace) : Request Workspace
| WorkspaceGet (name : string) : Request Workspace
| WorkspaceUpdate (ws : Workspace) : Request Workspace
| NetworkProvision (workspace_name : string) : Request ProvisionStatus
| OutboundRuleCreate (workspace_name : string) (rule : OutboundRule)
  : Request OutboundRule
| WorkspaceDelete (name : string) (delete_dependent_resources : bool)
  : Request unit.

Inductive Operation : Type :=
| OpWorkspaceCreate | OpWorkspaceGet | OpWorkspaceUpdate
| OpNetworkProvision | OpOutboundRuleCreate | OpWorkspaceDelete.

Definition operation_of {A} (req : Request A) : Operation :=
  match req with
  | WorkspaceCreate _ => OpWorkspaceCreate
  | WorkspaceGet _ => OpWorkspaceGet
  | WorkspaceUpdate _ => OpWorkspaceUpdate
  | NetworkProvision _ => OpNetworkProvision
  | OutboundRuleCreate _ _ => OpOutboundRuleCreate
  | WorkspaceDelete _ _ => OpWorkspaceDelete
  end.

(** The remote management API is an external collaborator: its state, the
    failures it reports and its reaction to a request are left abstract. *)
Class ManagementService : Type := {
  Remote : Type;
  Failure : Type;
  serve : forall A, Request A -> Remote -> (Failure + A) * Remote
}.

Definition rules_of (ws : Workspace) : list OutboundRule :=
  match managed_network ws with
  | Some mn => outbound_rules mn
  | None => []
  end.

(** The rules a request carries to the service. *)
Definition rules_sent {A} (req : Request A) : list OutboundRule :=
  match req with
  | WorkspaceCreate ws => rules_of ws
  | WorkspaceUpdate ws => rules_of ws
  | OutboundRuleCreate _ rule => [rule]
  | _ => []
  end.

Section Client.

Context {svc : ManagementService}.

(** The rules a successful response carries back. *)
Definition rules_received {A} (req : Request A) : Failure + A -> list OutboundRule :=
  match req in Request T return Failure + T -> list OutboundRule with
  | WorkspaceCreate _ | WorkspaceGet _ | WorkspaceUpdate _ =>
      fun out => match out with inr ws => rules_of ws | inl _ => [] end
  | OutboundRuleCreate _ _ =>
      fun out => match out with inr rule => [rule] | inl _ => [] end
  | _ => fun _ => []
  end.

Inductive Event : Type :=
| Started (id : nat) {A} (req : Request A)
| Completed (id : nat) {A} (req : Request A) (outcome : Failure + A).

Inductive Printed : Type :=
| PrintedWorkspace (ws : Workspace)
| PrintedProvision (p : ProvisionStatus).

(** What the client can observe and change: the remote state, the
    operations begun and not yet completed, the history of exchanges, and
    what the cells printed. *)
Record World : Type := mkWorld {
  remote : Remote;
  in_flight : list nat;
  next_poller : nat;
  log : list Event;
  stdout : list Printed
}.

Definition initial_world (r : Remote) : World := mkWorld r [] 0 [] [].

(** What a statement can raise: the failure of an exchange, the error of
    an attribute access on [None], and the validation error of the
    specification, which no cell raises. *)
Inductive Exception : Type :=
| ServiceError (f : Failure)
| AttributeError (attribute : string)
| ValidationException (e : Validator.ValidationError).

Inductive Outcome (A : Type) : Type :=
| Returned (a : A)
| Raised (e : Exception).
Arguments Returned {A} a.
Arguments Raised {A} e.

(** Python statements: a state transformer that returns or raises. *)
Definition Client (A : Type) : Type := World -> Outcome A * World.

Definition ret {A} (a : A) : Client A := fun w => (Returned a, w).

Definition raise {A} (e : Exception) : Client A := fun w => (Raised e, w).

Definition bind {A B} (m : Client A) (f : A -> Client B) : Client B :=
  fun w =>
    match m w with
    | (Returned a, w') => f a w'
    | (Raised e, w') => (Raised e, w')
    end.

End Client.

Arguments Returned {svc A} a.
Arguments Raised {svc A} e.
Arguments Started {svc} id {A} req.
Arguments Completed {svc} id {A} req outcome.

Declare Scope client_scope.
Delimit Scope client_scope with client.
Notation "x <- m ;; k" := (bind m (fun x => k))
  (at level 100, m at next level, right associativity) : client_scope.
Notation "m ;; k" := (bind m (fun _ => k))
  (at level 100, right associativity) : client_scope.
Local Open Scope client_scope.

Section SDK.

Context {svc : ManagementService} {defaults : RuleDefaults}.

(** [LROPoller]: the handle a [begin_*] method returns.  The service has
    accepted the request; the outcome is held until [.result()] asks. *)
Record LROPoller (A : Type) : Type := mkPoller {
  poller_id : nat;
  poller_request : Request A;
  poller_outcome : Failure + A
}.
Arguments mkPoller {A}.
Arguments poller_id {A}.
Arguments poller_request {A}.
Arguments poller_outcome {A}.

(** A [begin_*] call: the request goes to the service and is in flight. *)
Definition begin_operation {A} (req : Request A) : Client (LROPoller A) :=
  fun w =>
    let id := next_poller w in
    let (out, remote') := serve A req (remote w) in
    (Returned (mkPoller id req out),
     mkWorld remote' (id :: in_flight w) (S id)
             (log w ++ [Started id req]) (stdout w)).

(** [poller.result()]: blocks until the operation is complete, then returns
    its value or raises its failure.  Asking a completed poller again
    returns the same outcome without a further exchange. *)
Definition result {A} (p : LROPoller A) : Client A :=
  fun w =>
    let w' :=
      if existsb (Nat.eqb (poller_id p)) (in_flight w)
      then mkWorld (remote w)
                   (filter (fun i => negb (Nat.eqb (poller_id p) i)) (in_flight w))
                   (next_poller w)
                   (log w ++ [Completed (poller_id p) (poller_request p)
                                        (poller_outcome p)])
                   (stdout w)
      else w in
    match poller_outcome p with
    | inr a => (Returned a, w')
    | inl f => (Raised (ServiceError f), w')
    end.

Definition print (p : Printed) : Client unit :=
  fun w =>
    (Returned tt,
     mkWorld (remote w) (in_flight w) (next_poller w) (log w) (stdout w ++ [p])).

(** The methods of [ml_client] the notebook calls. *)
Definition workspaces_begin_create (ws : Workspace) : Client (LROPoller Workspace) :=
  begin_operation (WorkspaceCreate ws).

Definition workspaces_begin_update (ws : Workspace) : Client (LROPoller Workspace) :=
  begin_operation (WorkspaceUpdate ws).

Definition workspaces_begin_provision_network (workspace_name : string)
  : Client (LROPoller ProvisionStatus) :=
  begin_operation (NetworkProvision workspace_name).

Definition workspace_outbound_rules_begin_create (workspace_name : string)
  (rule : OutboundRule) : Client (LROPoller OutboundRule) :=
  begin_operation (OutboundRuleCreate workspace_name rule).

Definition workspaces_begin_delete (name : string)
  (delete_dependent_resources : bool) : Client (LROPoller unit) :=
  begin_operation (WorkspaceDelete name delete_dependent_resources).

(** [workspaces.get] is a blocking call: it returns once the exchange is
    over. *)
Definition workspaces_get (name : string) : Client Workspace :=
  p <- begin_operation (WorkspaceGet name) ;; result p.

(** [ws.managed_network.isolation_mode = mode]: raises when the workspace
    has no managed network, otherwise changes that one attribute. *)
Definition set_isolation_mode (ws : Workspace) (mode : IsolationMode)
  : Client Workspace :=
  match managed_network ws with
  | None => raise (AttributeError "isolation_mode")
  | Some mn =>
      ret (mkWorkspace (ws_name ws) (location ws)
             (Some (mkManagedNetwork mode (outbound_rules mn)))
             (storage_account ws))
  end.


(** ** The notebook, cell by cell *)

(** Cell 1.3. *)
Definition managed_network_1_3 : ManagedNetwork :=
  mkManagedNetwork ALLOW_INTERNET_OUTBOUND [].

(** Cell 1.4; [now] is [datetime.datetime.now().strftime("%Y%m%d%H%M")]. *)
Definition mvnet_workspace_name (now : string) : string :=
  "mlw-mvnet-prod-" ++ now.

Definition cell_1_4 (now : string) : Client Workspace :=
  let ws_mvnet :=
    mkWorkspace (mvnet_workspace_name now) "eastus"
                (Some managed_network_1_3) None in
  ws_mvnet <- (p <- workspaces_begin_create ws_mvnet ;; result p) ;;
  print (PrintedWorkspace ws_mvnet) ;;
  ret ws_mvnet.

(** Cell 1.5; the value of [ws_mvnet] after the cell is the fetched
    workspace with its mode changed. *)
Definition cell_1_5 (now : string) : Client Workspace :=
  ws_mvnet <- workspaces_get (mvnet_workspace_name now) ;;
  ws_mvnet <- set_isolation_mode ws_mvnet ALLOW_ONLY_APPROVED_OUTBOUND ;;
  aoao_ws <- (p <- workspaces_begin_update ws_mvnet ;; result p) ;;
  print (PrintedWorkspace aoao_ws) ;;
  ret ws_mvnet.

(** Cell 2. *)
Definition cell_2 (now : string) : Client unit :=
  ws_provisioned <-
    (p <- workspaces_begin_provision_network (mvnet_workspace_name now) ;;
     result p) ;;
  print (PrintedProvision ws_provisioned).

(** Cell 3.1. *)
Definition cell_3_1 (now : string) : Client OutboundRule :=
  p <- workspace_outbound_rules_begin_create (mvnet_workspace_name now)
         (ServiceTagDestination "servicetagrule" "AzureCloud" "TCP" "80, 8080") ;;
  result p.

(** Cell 3.2. *)
Definition cell_3_2 (now : string) : Client OutboundRule :=
  p <- workspace_outbound_rules_begin_create (mvnet_workspace_name now)
         (FqdnDestination "fqdnrule" "pypi.org") ;;
  result p.

(** Cell 3.3. *)
Definition cell_3_3 (now : string) (ws_mvnet : Workspace) : Client OutboundRule :=
  p <- workspace_outbound_rules_begin_create (mvnet_workspace_name now)
         (PrivateEndpointDestination "privateendpointrule"
            (storage_account ws_mvnet) "table") ;;
  result p.

(** Cell 3.4. *)
Definition cell_3_4 (now : string) : Client Workspace :=
  ws_mvnet <- workspaces_get (mvnet_workspace_name now) ;;
  print (PrintedWorkspace ws_mvnet) ;;
  ret ws_mvnet.

(** Clean-up cell. *)
Definition cell_delete (now : string) : Client unit :=
  p <- workspaces_begin_delete (mvnet_workspace_name now) true ;; result p.

(** The cells in document order; an exception ends the run. *)
Definition notebook (now : string) : Client unit :=
  _ <- cell_1_4 now ;;
  ws_mvnet <- cell_1_5 now ;;
  cell_2 now ;;
  _ <- cell_3_1 now ;;
  _ <- cell_3_2 now ;;
  _ <- cell_3_3 now ws_mvnet ;;
  _ <- cell_3_4 now ;;
  cell_delete now.

(** The order in which the cells invoke the service. *)
Definition notebook_order : list Operation :=
  [OpWorkspaceCreate; OpWorkspaceGet; OpWorkspaceUpdate; OpNetworkProvision;
   OpOutboundRuleCreate; OpOutboundRuleCreate; OpOutboundRuleCreate;
   OpWorkspaceGet; OpWorkspaceDelete].

(** ** Reading the history of exchanges *)

(** The operations begun, oldest first. *)
Fixpoint issued (l : list Event) : list Operation :=
  match l with
  | [] => []
  | Started _ req :: l' => operation_of req :: issued l'
  | Completed _ _ _ :: l' => issued l'
  end.

(** The operations in flight after a history, starting from [flying]. *)
Fixpoint in_flight_after (flying : list nat) (l : list Event) : list nat :=
  match l with
  | [] => flying
  | Started id _ :: l' => in_flight_after (id :: flying) l'
  | Completed id _ _ :: l' =>
      in_flight_after (filter (fun i => negb (Nat.eqb id i)) flying) l'
  end.

(** The largest number of operations in flight at any point of a history. *)
Fixpoint peak_in_flight (flying : list nat) (l : list Event) : nat :=
  match l with
  | [] => length flying
  | Started id _ :: l' =>
      Nat.max (length flying) (peak_in_flight (id :: flying) l')
  | Completed id _ _ :: l' =>
      Nat.max (length flying)
        (peak_in_flight (filter (fun i => negb (Nat.eqb id i)) flying) l')
  end.

(** Every operation is completed right after it was begun. *)
Inductive Sequential : list Event -> Prop :=
| Sequential_nil : Sequential []
| Sequential_exchange id A (req : Request A) out l :
    Sequential l ->
    Sequential (Started id req :: Completed id req out :: l).

(** A rule without status and category. *)
Definition unassigned (r : OutboundRule) : Prop :=
  status r = None /\ category r = None.

(** A rule whose status and category are those a constructor gives. *)
Definition as_constructed (r : OutboundRule) : Prop :=
  status r = default_status /\ category r = default_category.

(** Every rule the client sends satisfies [built], or is a rule an earlier
    response carried ([known] holds those). *)
Fixpoint relayed (built : OutboundRule -> Prop) (known : list OutboundRule)
  (l : list Event) : Prop :=
  match l with
  | [] => True
  | Started _ req :: l' =>
      (forall r, In r (rules_sent req) -> built r \/ In r known)
      /\ relayed built known l'
  | Completed _ req out :: l' =>
      relayed built (rules_received req out ++ known) l'
  end.

End SDK.

Arguments mkPoller {svc A}.
Arguments poller_id {svc A}.
Arguments poller_request {svc A}.
Arguments poller_outcome {svc A}.

(** ** The sweep-job document *)

Module SweepJob.

Inductive Distribution : Type :=
| uniform (min_value max_value : Q)
| choice (values : list string).

Record Trial : Type := mkTrial {
  code : string;
  command : string;
  environment : string
}.

Record Input : Type := mkInput {
  input_type : string;
  path : string
}.

Inductive ObjectiveGoal : Type := minimize | maximize.

Record Objective : Type := mkObjective {
  goal : ObjectiveGoal;
  primary_metric : string
}.

Record Limits : Type := mkLimits {
  max_total_trials : Z;
  max_concurrent_trials : Z;
  timeout : Z
}.

Record Document : Type := mkDocument {
  schema : string;
  type : string;
  trial : Trial;
  inputs : list (string * Input);
  compute : string;
  sampling_algorithm : string;
  search_space : list (string * Distribution);
  objective : Objective;
  limits : Limits;
  display_name : string;
  experiment_name : string;
  description : string
}.

(** The document, field by field; the decimal scalars are kept exact. *)
Definition sweep_job : Document := {|
  schema := "https://azuremlschemas.azureedge.net/latest/sweepJob.schema.json";
  type := "sweep";
  trial := {|
    code := "src";
    command := "python main.py --iris-csv ${{inputs.iris_csv}} --learning-rate ${{search_space.learning_rate}} --boosting ${{search_space.boosting}}";
    environment := "azureml:AzureML-lightgbm-3.3@latest" |};
  inputs :=
    [("iris_csv",
      {| input_type := "uri_file";
         path := "https://azuremlexamples.blob.core.windows.net/datasets/iris.csv" |})];
  compute := "azureml:cpu-cluster";
  sampling_algorithm := "random";
  search_space :=
    [("learning_rate", uniform 0.01 0.9);
     ("boosting", choice ["gbdt"; "dart"])];
  objective := {| goal := minimize; primary_metric := "test-multi_logloss" |};
  limits := {| max_total_trials := 20%Z; max_concurrent_trials := 10%Z;
               timeout := 7200%Z |};
  display_name := "lightgbm-iris-sweep-example";
  experiment_name := "lightgbm-iris-sweep-example";
  description := "Run a hyperparameter sweep job for LightGBM on Iris dataset."
|}.

Fixpoint lookup {A} (key : string) (entries : list (string * A)) : option A :=
  match entries with
  | [] => None
  | (k, v) :: rest => if String.eqb key k then Some v else lookup key rest
  end.

(** A uniform distribution spans a non-empty interval. *)
Definition distribution_ok (d : Distribution) : Prop :=
  match d with
  | uniform lo hi => (lo < hi)%Q
  | choice _ => True
  end.

Fixpoint search_space_ok (space : list (string * Distribution)) : Prop :=
  match space with
  | [] => True
  | (_, d) :: rest => distribution_ok d /\ search_space_ok rest
  end.

(** The concurrency bound stays within the budget of trials. *)
Definition limits_ok (l : Limits) : Prop :=
  (max_concurrent_trials l <= max_total_trials l)%Z.

End SweepJob.

(** ** Statements about rule lists *)

(** Two rules at different positions have the same name. *)
Definition share_a_name (rules : list OutboundRule) : Prop :=
  exists i j r1 r2,
    i <> j /\ nth_error rules i = Some r1 /\ nth_error rules j = Some r2
    /\ name r1 = name r2.

(** ** A service to run the notebook against *)

(** A one-workspace service kept in memory: it stores what it is sent and
    stamps the rules it creates. *)
Definition memory_serve (A : Type) (req : Request A) (store : option Workspace)
  : (string + A) * option Workspace :=
  match req in Request T return (string + T) * option Workspace with
  | WorkspaceCreate ws =>
      let ws' := mkWorkspace (ws_name ws) (location ws) (managed_network ws)
                             (Some "storage") in
      (inr ws', Some ws')
  | WorkspaceGet _ =>
      match store with
      | Some ws => (inr ws, store)
      | None => (inl "ResourceNotFound", store)
      end
  | WorkspaceUpdate ws => (inr ws, Some ws)
  | NetworkProvision _ => (inr (mkProvisionStatus Active false), store)
  | OutboundRuleCreate _ rule =>
      (inr (mkRule (name rule) (dest rule) (Some Active) (Some UserDefined)),
       store)
  | WorkspaceDelete _ _ => (inr tt, None)
  end.

Definition memory_service : ManagementService :=
  {| Remote := option Workspace; Failure := string; serve := memory_serve |}.

(** ** Statements about client programs *)

Section Statements.

Context {svc : ManagementService} {defaults : RuleDefaults}.

(** What the caller of [.result()] sees of a service outcome. *)
Definition relay {A} (out : Failure + A) : Outcome A :=
  match out with
  | inr a => Returned a
  | inl f => Raised (ServiceError f)
  end.

(** [m] keeps the property [I] of the world, whether it returns or raises. *)
Definition preserves {A} (I : World -> Prop) (m : Client A) : Prop :=
  forall w, I w -> I (snd (m w)).

(** Nothing is in flight and the history is a sequence of exchanges. *)
Definition quiescent (w : World) : Prop :=
  in_flight w = [] /\ Sequential (log w).

(** When [m] returns it has begun exactly the operations [ops], in that
    order; when it raises it has begun an initial part of them. *)
Definition emits {A} (m : Client A) (ops : list Operation) : Prop :=
  forall w,
    exists done,
      issued (log (snd (m w))) = issued (log w) ++ done
      /\ match fst (m w) with
         | Returned _ => done = ops
         | Raised _ => exists rest, ops = done ++ rest
         end.

(** The rules the service has handed out by the end of a history. *)
Fixpoint known_after (known : list OutboundRule) (l : list Event)
  : list OutboundRule :=
  match l with
  | [] => known
  | Started _ _ :: l' => known_after known l'
  | Completed _ req out :: l' => known_after (rules_received req out ++ known) l'
  end.

Definition relays (w : World) : Prop := relayed as_constructed [] (log w).

End Statements.

(** ** The name of the workspace *)

(** [datetime.datetime.now()]: the fields of the value cell 1.4 formats. *)
Record datetime : Type := mkDatetime {
  year : N;
  month : N;
  day : N;
  hour : N;
  minute : N;
  second : N
}.

(** The values [datetime] admits for which [%Y] prints four digits. *)
Definition datetime_ok (t : datetime) : Prop :=
  (1000 <= year t /\ year t <= 9999 /\ 1 <= month t /\ month t <= 12
   /\ 1 <= day t /\ day t <= 31
   /\ hour t < 24 /\ minute t < 60 /\ second t < 60)%N.

Definition digit (d : N) : Ascii.ascii := Ascii.ascii_of_N (48 + d).

(** [%m], [%d], [%H], [%M]: two decimal digits, zero padded. *)
Definition two_digits (n : N) (rest : string) : string :=
  String (digit (n / 10)) (String (digit (n mod 10)) rest).

(** [%Y]: four decimal digits. *)
Definition four_digits (n : N) (rest : string) : string :=
  String (digit (n / 1000))
    (String (digit ((n / 100) mod 10))
       (String (digit ((n / 10) mod 10)) (String (digit (n mod 10)) rest))).

(** [t.strftime("%Y%m%d%H%M")] (cell 1.4). *)
Definition strftime_YmdHM (t : datetime) : string :=
  four_digits (year t)
    (two_digits (month t)
       (two_digits (day t) (two_digits (hour t) (two_digits (minute t) "")))).

Definition same_minute (t1 t2 : datetime) : Prop :=
  year t1 = year t2 /\ month t1 = month t2 /\ day t1 = day t2
  /\ hour t1 = hour t2 /\ minute t1 = minute t2.

(** ** Reading more of the history *)

Section History.

Context {svc : ManagementService}.

(** The workspace a request is about. *)
Definition target_name {A} (req : Request A) : string :=
  match req with
  | WorkspaceCreate ws => ws_name ws
  | WorkspaceGet n => n
  | WorkspaceUpdate ws => ws_name ws
  | NetworkProvision n => n
  | OutboundRuleCreate n _ => n
  | WorkspaceDelete n _ => n
  end.

(** The operations begun, each with the workspace it is about. *)
Fixpoint targets (l : list Event) : list (Operation * string) :=
  match l with
  | [] => []
  | Started _ req :: l' => (operation_of req, target_name req) :: targets l'
  | Completed _ _ _ :: l' => targets l'
  end.

(** A completion that reports a failure. *)
Definition failed (ev : Event) : bool :=
  match ev with
  | Completed _ _ (inl _) => true
  | _ => false
  end.

Definition clean (l : list Event) : bool := forallb (fun ev => negb (failed ev)) l.

Definition rule_of_request {A} (req : Request A) : list OutboundRule :=
  match req with
  | OutboundRuleCreate _ rule => [rule]
  | _ => []
  end.

(** The rules whose creation was begun, oldest first. *)
Fixpoint rules_created (l : list Event) : list OutboundRule :=
  match l with
  | [] => []
  | Started _ req :: l' => rule_of_request req ++ rules_created l'
  | Completed _ _ _ :: l' => rules_created l'
  end.

Definition fetched_by {A} (req : Request A) : Failure + A -> list Workspace :=
  match req in Request T return Failure + T -> list Workspace with
  | WorkspaceGet _ =>
      fun out => match out with inr ws => [ws] | inl _ => [] end
  | _ => fun _ => []
  end.

(** The workspaces [workspaces.get] returned, oldest first. *)
Fixpoint fetched (l : list Event) : list Workspace :=
  match l with
  | [] => []
  | Started _ _ :: l' => fetched l'
  | Completed _ req out :: l' => fetched_by req out ++ fetched l'
  end.

Definition updated_by {A} (req : Request A) : Failure + A -> list Workspace :=
  match req in Request T return Failure + T -> list Workspace with
  | WorkspaceUpdate ws =>
      fun out => match out with inr _ => [ws] | inl _ => [] end
  | _ => fun _ => []
  end.

(** The workspaces sent by the updates the service accepted. *)
Fixpoint updates_accepted (l : list Event) : list Workspace :=
  match l with
  | [] => []
  | Started _ _ :: l' => updates_accepted l'
  | Completed _ req out :: l' => updated_by req out ++ updates_accepted l'
  end.

Definition provisioned_by {A} (req : Request A) : Failure + A -> list string :=
  match req in Request T return Failure + T -> list string with
  | NetworkProvision n =>
      fun out => match out with inr _ => [n] | inl _ => [] end
  | _ => fun _ => []
  end.

(** The workspaces whose network the service provisioned. *)
Fixpoint provisioned (l : list Event) : list string :=
  match l with
  | [] => []
  | Started _ _ :: l' => provisioned l'
  | Completed _ req out :: l' => provisioned_by req out ++ provisioned l'
  end.

Definition deleted_by {A} (req : Request A) : Failure + A -> list bool :=
  match req in Request T return Failure + T -> list bool with
  | WorkspaceDelete _ _ =>
      fun out => match out with inr _ => [true] | inl _ => [false] end
  | _ => fun _ => []
  end.

(** The deletions completed: [true] for a success. *)
Fixpoint deletions (l : list Event) : list bool :=
  match l with
  | [] => []
  | Started _ _ :: l' => deletions l'
  | Completed _ req out :: l' => deleted_by req out ++ deletions l'
  end.

Definition answer_of {A} (req : Request A) : Failure + A -> list Printed :=
  match req in Request T return Failure + T -> list Printed with
  | WorkspaceCreate _ | WorkspaceGet _ | WorkspaceUpdate _ =>
      fun out => match out with inr ws => [PrintedWorkspace ws] | inl _ => [] end
  | NetworkProvision _ =>
      fun out => match out with inr p => [PrintedProvision p] | inl _ => [] end
  | _ => fun _ => []
  end.

(** What the service answered with success, as [print] would show it. *)
Fixpoint answers (l : list Event) : list Printed :=
  match l with
  | [] => []
  | Started _ _ :: l' => answers l'
  | Completed _ req out :: l' => answer_of req out ++ answers l'
  end.

(** The world after [begin_*(...).result()] for the request [req]. *)
Definition exchanged {A} (req : Request A) (w : World) : World :=
  snd ((p <- begin_operation req ;; result p) w).

(** The failure the last event of a history reports, if it reports one. *)
Fixpoint last_failure (l : list Event) : option Failure :=
  match l with
  | [] => None
  | [Completed _ _ (inl f)] => Some f
  | _ :: l' => last_failure l'
  end.




Definition approved_only (ws : Workspace) : Prop :=
  exists mn, managed_network ws = Some mn
             /\ isolation_mode mn = ALLOW_ONLY_APPROVED_OUTBOUND.

End History.

(** * Properties *)

(** ** Names and duplicates *)

Lemma name_in_In (n : string) (names : list string) :
  name_in n names = true <-> In n names.
Proof.
  unfold name_in. rewrite existsb_exists. split.
  - intros [x [Hx Heq]]. apply String.eqb_eq in Heq. now subst.
  - intros H. exists n. split; [assumption | apply String.eqb_refl].
Qed.

Lemma name_in_false (n : string) (names : list string) :
  ~ In n names -> name_in n names = false.
Proof.
  intros H. destruct (name_in n names) eqn:E; [| reflexivity].
  apply name_in_In in E. contradiction.
Qed.

Lemma name_in_app (n : string) (l1 l2 : list string) :
  name_in n (l1 ++ l2) = name_in n l1 || name_in n l2.
Proof. unfold name_in. apply existsb_app. Qed.

Lemma has_duplicate_NoDup (names : list string) :
  Validator.has_duplicate names = false <-> NoDup names.
Proof.
  induction names as [| n rest IH]; simpl.
  - split; [constructor | reflexivity].
  - rewrite orb_false_iff, IH. split.
    + intros [Hn Hrest]. constructor; [| assumption].
      intros Hin. apply name_in_In in Hin. congruence.
    + intros H. inversion H; subst. split; [| assumption].
      now apply name_in_false.
Qed.

Lemma has_duplicate_snoc (names : list string) (n : string) :
  Validator.has_duplicate (names ++ [n])
  = Validator.has_duplicate names || name_in n names.
Proof.
  induction names as [| m rest IH]; simpl.
  - reflexivity.
  - rewrite IH, name_in_app. simpl. rewrite orb_false_r.
    rewrite (String.eqb_sym n m).
    destruct (name_in m rest), (Validator.has_duplicate rest),
      (String.eqb m n), (name_in n rest); reflexivity.
Qed.

Lemma share_a_name_has_duplicate (rules : list OutboundRule) :
  share_a_name rules -> Validator.has_duplicate (rule_names rules) = true.
Proof.
  intros (i & j & r1 & r2 & Hij & Hi & Hj & Hname).
  destruct (Validator.has_duplicate (rule_names rules)) eqn:E; [reflexivity |].
  exfalso. apply has_duplicate_NoDup in E. apply Hij.
  apply (proj1 (NoDup_nth_error (rule_names rules)) E).
  - unfold rule_names. rewrite length_map.
    apply nth_error_Some. congruence.
  - unfold rule_names. rewrite !nth_error_map, Hi, Hj. simpl. now rewrite Hname.
Qed.

Lemma has_duplicate_share_a_name (rules : list OutboundRule) :
  Validator.has_duplicate (rule_names rules) = true -> share_a_name rules.
Proof.
  induction rules as [| r rest IH]; simpl; [discriminate |].
  intros H. apply orb_true_iff in H. destruct H as [H | H].
  - apply name_in_In in H. apply in_map_iff in H.
    destruct H as [r' [Hname Hin]].
    apply In_nth_error in Hin. destruct Hin as [k Hk].
    exists 0, (S k), r, r'. repeat split; simpl; auto.
  - destruct (IH H) as (i & j & r1 & r2 & Hij & Hi & Hj & Hname).
    exists (S i), (S j), r1, r2. repeat split; simpl; auto.
Qed.

(** ** Adding rules *)

Lemma unsupported_for_mode_private_endpoint (mode : IsolationMode)
  (rule : OutboundRule) :
  is_private_endpoint rule = true ->
  Validator.unsupported_for_mode mode rule = false.
Proof. intros H. destruct mode; simpl; rewrite ?H; reflexivity. Qed.

Lemma add_rule_fresh (config : ManagedNetwork) (rule : OutboundRule) :
  ~ In (name rule) (rule_names (outbound_rules config)) ->
  Validator.unsupported_for_mode (isolation_mode config) rule = false ->
  Validator.add_rule config rule
  = Validator.Ok (Validator.with_rule config rule).
Proof.
  intros Hfresh Hmode. unfold Validator.add_rule, Validator.check_rule.
  rewrite (name_in_false _ _ Hfresh), Hmode. reflexivity.
Qed.

(** On a configuration that passes [validate], the check of the new rule
    alone is the validation of the configuration with the rule added. *)
Lemma check_rule_validate (config : ManagedNetwork) (rule : OutboundRule) :
  Validator.validate config = Validator.Ok tt ->
  Validator.check_rule config rule
  = Validator.validate (Validator.with_rule config rule).
Proof.
  unfold Validator.validate, Validator.check_rule, Validator.with_rule. simpl.
  destruct (Validator.has_duplicate (rule_names (outbound_rules config)))
    eqn:Hdup; [discriminate |].
  destruct (existsb (Validator.unsupported_for_mode (isolation_mode config))
                    (outbound_rules config)) eqn:Hun; [discriminate |].
  intros _. unfold rule_names. rewrite map_app. simpl.
  rewrite has_duplicate_snoc. fold (rule_names (outbound_rules config)).
  rewrite Hdup. simpl.
  destruct (name_in (name rule) (rule_names (outbound_rules config)));
    [reflexivity |].
  rewrite existsb_app, Hun. simpl. rewrite orb_false_r. reflexivity.
Qed.

(** C2.  A configuration in which two rules share a name fails [validate]
    with [DuplicateRuleName]; adding a rule whose name is already present is
    rejected with [DuplicateRuleName]; adding a rule with a fresh name under
    a mode that supports it succeeds. *)
Theorem duplicate_rule_name_rejected :
  (forall config,
      share_a_name (outbound_rules config) ->
      Validator.validate config = Validator.Err Validator.DuplicateRuleName)
  /\ (forall config rule,
      In (name rule) (rule_names (outbound_rules config)) ->
      Validator.add_rule config rule
      = Validator.Err Validator.DuplicateRuleName)
  /\ (forall config rule,
      ~ In (name rule) (rule_names (outbound_rules config)) ->
      isolation_mode config <> ALLOW_INTERNET_OUTBOUND
      \/ is_private_endpoint rule = true ->
      Validator.add_rule config rule
      = Validator.Ok (Validator.with_rule config rule)).
Proof.
  split; [| split].
  - intros config Hshare. unfold Validator.validate.
    now rewrite (share_a_name_has_duplicate _ Hshare).
  - intros config rule Hin.
    unfold Validator.add_rule, Validator.check_rule.
    now rewrite (proj2 (name_in_In _ _) Hin).
  - intros config rule Hfresh Hcompatible. apply add_rule_fresh; [assumption |].
    destruct Hcompatible as [Hmode | Hpe].
    + destruct (isolation_mode config); try reflexivity. congruence.
    + now apply unsupported_for_mode_private_endpoint.
Qed.

(** The example of the specification: rule [r1] is accepted under
    [ALLOW_ONLY_APPROVED_OUTBOUND], a second [r1] is not. *)
Lemma duplicate_rule_name_rejected_witness :
  let r1 := ServiceTagDestination "r1" "AzureCloud" "TCP" "80,8080" in
  Validator.validate (mkManagedNetwork ALLOW_ONLY_APPROVED_OUTBOUND [r1; r1])
  = Validator.Err Validator.DuplicateRuleName
  /\ Validator.add_rule (mkManagedNetwork ALLOW_ONLY_APPROVED_OUTBOUND [r1]) r1
     = Validator.Err Validator.DuplicateRuleName
  /\ Validator.add_rule (mkManagedNetwork ALLOW_ONLY_APPROVED_OUTBOUND []) r1
     = Validator.Ok (mkManagedNetwork ALLOW_ONLY_APPROVED_OUTBOUND [r1]).
Proof.
  intros r1.
  destruct duplicate_rule_name_rejected as [Hvalidate [Hclash Hfresh]].
  split; [| split].
  - apply (Hvalidate (mkManagedNetwork ALLOW_ONLY_APPROVED_OUTBOUND [r1; r1])).
    exists 0, 1, r1, r1. simpl. repeat split; [lia | reflexivity ..].
  - apply (Hclash (mkManagedNetwork ALLOW_ONLY_APPROVED_OUTBOUND [r1]) r1).
    simpl. left. reflexivity.
  - apply (Hfresh (mkManagedNetwork ALLOW_ONLY_APPROVED_OUTBOUND []) r1).
    + simpl. intros H. exact H.
    + left. simpl. discriminate.
Defined.

(** C4.  Under every isolation mode, and for every configuration in that
    mode, a private-endpoint rule with a fresh name is accepted; if the
    configuration passed [validate], so does the configuration with the
    rule added. *)
Theorem private_endpoint_accepted :
  forall mode config rule,
    isolation_mode config = mode ->
    is_private_endpoint rule = true ->
    ~ In (name rule) (rule_names (outbound_rules config)) ->
    Validator.add_rule config rule
    = Validator.Ok (Validator.with_rule config rule)
    /\ (Validator.validate config = Validator.Ok tt ->
        Validator.validate (Validator.with_rule config rule) = Validator.Ok tt).
Proof.
  intros mode config rule _ Hkind Hfresh.
  assert (Hcheck : Validator.check_rule config rule = Validator.Ok tt).
  { unfold Validator.check_rule.
    rewrite (name_in_false _ _ Hfresh).
    now rewrite unsupported_for_mode_private_endpoint. }
  split.
  - unfold Validator.add_rule. now rewrite Hcheck.
  - intros Hvalid. rewrite <- (check_rule_validate _ _ Hvalid). exact Hcheck.
Qed.

Lemma private_endpoint_accepted_witness :
  let rule := PrivateEndpointDestination "privateendpointrule" None "table" in
  Validator.add_rule (mkManagedNetwork DISABLED []) rule
  = Validator.Ok (mkManagedNetwork DISABLED [rule])
  /\ Validator.add_rule (mkManagedNetwork ALLOW_INTERNET_OUTBOUND []) rule
     = Validator.Ok (mkManagedNetwork ALLOW_INTERNET_OUTBOUND [rule])
  /\ Validator.add_rule
       (mkManagedNetwork ALLOW_ONLY_APPROVED_OUTBOUND
          [FqdnDestination "fqdnrule" "pypi.org"]) rule
     = Validator.Ok
         (mkManagedNetwork ALLOW_ONLY_APPROVED_OUTBOUND
            [FqdnDestination "fqdnrule" "pypi.org"; rule]).
Proof.
  intros rule. split; [| split].
  - apply (private_endpoint_accepted DISABLED
             (mkManagedNetwork DISABLED []) rule);
      [reflexivity | reflexivity | simpl; tauto].
  - apply (private_endpoint_accepted ALLOW_INTERNET_OUTBOUND
             (mkManagedNetwork ALLOW_INTERNET_OUTBOUND []) rule);
      [reflexivity | reflexivity | simpl; tauto].
  - apply (private_endpoint_accepted ALLOW_ONLY_APPROVED_OUTBOUND
             (mkManagedNetwork ALLOW_ONLY_APPROVED_OUTBOUND
                [FqdnDestination "fqdnrule" "pypi.org"]) rule);
      [reflexivity | reflexivity |].
    simpl. intros [H | []]. discriminate H.
Defined.

(** ** One exchange *)

Section Exchanges.

Context {svc : ManagementService} {defaults : RuleDefaults}.

(** [begin_*(...).result()], run from any world. *)
Lemma exchange_run {A} (req : Request A) (w : World) :
  (p <- begin_operation req ;; result p) w
  = (relay (fst (serve A req (remote w))),
     mkWorld (snd (serve A req (remote w)))
             (filter (fun i => negb (Nat.eqb (next_poller w) i)) (in_flight w))
             (S (next_poller w))
             (log w ++ [Started (next_poller w) req;
                        Completed (next_poller w) req
                                  (fst (serve A req (remote w)))])
             (stdout w)).
Proof.
  unfold bind, begin_operation, result.
  destruct (serve A req (remote w)) as [out remote']. simpl.
  rewrite Nat.eqb_refl. simpl. rewrite <- app_assoc. simpl.
  destruct out; reflexivity.
Qed.

Lemma issued_app (l1 l2 : list Event) :
  issued (l1 ++ l2) = issued l1 ++ issued l2.
Proof.
  induction l1 as [| ev l IH]; simpl; [reflexivity |].
  destruct ev; simpl; now rewrite IH.
Qed.

End Exchanges.

(** ** Programs that keep a property of the world *)

Create HintDb client.

Section Programs.

Context {svc : ManagementService} {defaults : RuleDefaults}.

Lemma preserves_ret {A} (I : World -> Prop) (a : A) : preserves I (ret a).
Proof. intros w H. exact H. Qed.

Lemma preserves_raise {A} (I : World -> Prop) (e : Exception) :
  preserves I (@raise _ A e).
Proof. intros w H. exact H. Qed.

Lemma preserves_bind {A B} (I : World -> Prop) (m : Client A)
  (f : A -> Client B) :
  preserves I m -> (forall a, preserves I (f a)) -> preserves I (bind m f).
Proof.
  intros Hm Hf w H. unfold bind. specialize (Hm w H).
  destruct (m w) as [[a | e] w1]; simpl in *.
  - apply Hf. exact Hm.
  - exact Hm.
Qed.

Lemma preserves_set_isolation_mode (I : World -> Prop) (ws : Workspace)
  (mode : IsolationMode) :
  preserves I (set_isolation_mode ws mode).
Proof.
  unfold set_isolation_mode.
  destruct (managed_network ws); [apply preserves_ret | apply preserves_raise].
Qed.

(** *** Quiescence *)

Lemma Sequential_app (l1 l2 : list Event) :
  Sequential l1 -> Sequential l2 -> Sequential (l1 ++ l2).
Proof.
  intros H1 H2. induction H1; simpl; [exact H2 |].
  constructor. exact IHSequential.
Qed.

Lemma Sequential_peak (l : list Event) :
  Sequential l -> peak_in_flight [] l <= 1 /\ in_flight_after [] l = [].
Proof.
  intros H. induction H as [| id A req out l Hl [IHpeak IHafter]]; simpl.
  - split; [lia | reflexivity].
  - rewrite Nat.eqb_refl. simpl. split; [| exact IHafter].
    destruct (peak_in_flight [] l) as [| [| n]]; simpl; lia.
Qed.

Lemma quiescent_exchange {A} (req : Request A) :
  preserves quiescent (p <- begin_operation req ;; result p).
Proof.
  intros w [Hfly Hseq]. rewrite exchange_run. split; simpl.
  - rewrite Hfly. reflexivity.
  - apply Sequential_app; [exact Hseq |]. repeat constructor.
Qed.

Lemma quiescent_print (p : Printed) : preserves quiescent (print p).
Proof. intros w H. exact H. Qed.

(** *** Order of the operations begun *)

Lemma emits_ret {A} (a : A) : emits (ret a) [].
Proof. intros w. exists []. simpl. now rewrite app_nil_r. Qed.

Lemma emits_raise {A} (e : Exception) (ops : list Operation) :
  emits (@raise _ A e) ops.
Proof.
  intros w. exists []. simpl. rewrite app_nil_r.
  split; [reflexivity | now exists ops].
Qed.

Lemma emits_print (p : Printed) : emits (print p) [].
Proof. intros w. exists []. simpl. now rewrite app_nil_r. Qed.

Lemma emits_set_isolation_mode (ws : Workspace) (mode : IsolationMode) :
  emits (set_isolation_mode ws mode) [].
Proof.
  unfold set_isolation_mode.
  destruct (managed_network ws); [apply emits_ret | apply emits_raise].
Qed.

Lemma emits_exchange {A} (req : Request A) :
  emits (p <- begin_operation req ;; result p) [operation_of req].
Proof.
  intros w. rewrite exchange_run. simpl. exists [operation_of req].
  rewrite issued_app. simpl. split; [reflexivity |].
  destruct (fst (serve A req (remote w))); simpl;
    [now exists [] | reflexivity].
Qed.

Lemma emits_bind {A B} (m : Client A) (f : A -> Client B)
  (ops1 ops2 ops : list Operation) :
  emits m ops1 -> (forall a, emits (f a) ops2) -> ops = ops1 ++ ops2 ->
  emits (bind m f) ops.
Proof.
  intros Hm Hf -> w. unfold bind.
  destruct (Hm w) as [done1 [Hlog1 Hout1]].
  destruct (m w) as [[a | e] w1]; simpl in *.
  - subst done1. destruct (Hf a w1) as [done2 [Hlog2 Hout2]].
    exists (ops1 ++ done2). rewrite Hlog2, Hlog1, app_assoc.
    split; [reflexivity |].
    destruct (fst (f a w1)).
    + now subst.
    + destruct Hout2 as [rest ->]. exists rest. now rewrite app_assoc.
  - exists done1. split; [exact Hlog1 |].
    destruct Hout1 as [rest ->]. exists (rest ++ ops2). now rewrite app_assoc.
Qed.

(** *** Where the rules sent come from *)

Lemma relayed_app (built : OutboundRule -> Prop) (l1 l2 : list Event) :
  forall known,
    relayed built known (l1 ++ l2)
    <-> relayed built known l1 /\ relayed built (known_after known l1) l2.
Proof.
  induction l1 as [| ev l IH]; intros known; simpl.
  - tauto.
  - destruct ev; simpl; rewrite IH; tauto.
Qed.

Lemma known_after_app (l1 l2 : list Event) :
  forall known,
    known_after known (l1 ++ l2) = known_after (known_after known l1) l2.
Proof.
  induction l1 as [| ev l IH]; intros known; simpl; [reflexivity |].
  destruct ev; simpl; apply IH.
Qed.

Lemma relays_exchange {A} (req : Request A) (w : World) :
  relays w ->
  (forall r, In r (rules_sent req) ->
             as_constructed r \/ In r (known_after [] (log w))) ->
  relays (snd ((p <- begin_operation req ;; result p) w)).
Proof.
  unfold relays. intros Hw Hsent. rewrite exchange_run. simpl.
  apply relayed_app. split; [exact Hw |]. simpl. auto.
Qed.

Lemma relays_exchange_constructed {A} (req : Request A) :
  (forall r, In r (rules_sent req) -> as_constructed r) ->
  preserves relays (p <- begin_operation req ;; result p).
Proof. intros Hsent w Hw. apply relays_exchange; auto. Qed.

Lemma relays_print (p : Printed) : preserves relays (print p).
Proof. intros w H. exact H. Qed.

End Programs.

#[export] Hint Resolve preserves_ret preserves_raise preserves_bind
  preserves_set_isolation_mode quiescent_exchange quiescent_print
  relays_print : client.

(** ** The notebook *)

Section NotebookRun.

Context {svc : ManagementService} {defaults : RuleDefaults}.

Ltac open_cells :=
  unfold notebook, cell_1_4, cell_1_5, cell_2, cell_3_1, cell_3_2, cell_3_3,
    cell_3_4, cell_delete, workspaces_get, workspaces_begin_create,
    workspaces_begin_update, workspaces_begin_provision_network,
    workspace_outbound_rules_begin_create, workspaces_begin_delete.

Lemma notebook_quiescent (now : string) : preserves quiescent (notebook now).
Proof. open_cells. auto 30 with client. Qed.

Ltac emit_steps :=
  repeat first
    [ apply emits_ret
    | apply emits_print
    | apply emits_set_isolation_mode
    | apply emits_exchange
    | eapply emits_bind; [| intros ? |] ];
  try (simpl; reflexivity).

Lemma notebook_emits (now : string) : emits (notebook now) notebook_order.
Proof. open_cells. emit_steps. Qed.

(** Cell 1.5 sends back the rules it has just fetched, whatever status and
    category the service gave them. *)
Lemma cell_1_5_relays (now : string) : preserves relays (cell_1_5 now).
Proof.
  unfold cell_1_5, workspaces_get, workspaces_begin_update.
  intros w Hw. unfold bind at 1. rewrite exchange_run.
  destruct (serve Workspace (WorkspaceGet (mvnet_workspace_name now)) (remote w))
    as [[f | ws] remote1] eqn:Hget; simpl.
  - apply relayed_app. split; [exact Hw | simpl; intuition].
  - set (w1 := mkWorld _ _ _ _ _).
    assert (Hw1 : relays w1).
    { apply relayed_app. split; [exact Hw | simpl; intuition]. }
    assert (Hknown : forall r, In r (rules_of ws) ->
                               In r (known_after [] (log w1))).
    { intros r Hr. unfold w1. simpl. rewrite known_after_app. simpl.
      apply in_or_app. left. exact Hr. }
    unfold bind at 1. unfold set_isolation_mode.
    destruct (managed_network ws) as [mn |] eqn:Hmn; simpl; [| exact Hw1].
    set (ws' := mkWorkspace _ _ _ _).
    assert (Hw2 : relays (snd ((p <- begin_operation (WorkspaceUpdate ws') ;;
                                result p) w1))).
    { apply relays_exchange; [exact Hw1 |].
      intros r Hr. right. apply Hknown.
      unfold rules_of. rewrite Hmn. exact Hr. }
    unfold bind at 1.
    destruct ((p <- begin_operation (WorkspaceUpdate ws') ;; result p) w1)
      as [[aoao_ws | e] w2]; simpl in *; [| exact Hw2].
    exact Hw2.
Qed.

Ltac relay_steps :=
  repeat first
    [ apply relays_exchange_constructed; cbv [rules_sent rules_of
        managed_network outbound_rules managed_network_1_3 In];
      intros r Hr; repeat destruct Hr as [<- | Hr]; try contradiction;
      split; reflexivity
    | apply relays_print
    | apply preserves_ret
    | apply preserves_bind; [| intros ?] ].

Lemma notebook_relays (now : string) : preserves relays (notebook now).
Proof.
  unfold notebook.
  apply preserves_bind; [| intros _; apply preserves_bind;
                            [apply cell_1_5_relays | intros ws_mvnet]].
  - open_cells. relay_steps.
  - open_cells. relay_steps.
Qed.

(** C8.  A run of the notebook from a fresh kernel, against any service:
    every operation is completed right after it was begun, so at no point
    is more than one operation in flight and none is left in flight at the
    end; the operations are begun in the order of the cells, all of them
    when the run returns and an initial part of them when a cell raises. *)
Theorem notebook_sequential :
  forall (now : string) (r : Remote),
    let run := notebook now (initial_world r) in
    Sequential (log (snd run))
    /\ peak_in_flight [] (log (snd run)) <= 1
    /\ in_flight_after [] (log (snd run)) = []
    /\ in_flight (snd run) = []
    /\ (exists rest, notebook_order = issued (log (snd run)) ++ rest)
    /\ (forall u, fst run = Returned u -> issued (log (snd run)) = notebook_order).
Proof.
  intros now r run.
  assert (Hq : quiescent (snd run)).
  { apply notebook_quiescent. split; [reflexivity | constructor]. }
  destruct Hq as [Hfly Hseq].
  destruct (Sequential_peak _ Hseq) as [Hpeak Hafter].
  destruct (notebook_emits now (initial_world r)) as [done [Hlog Hout]].
  fold run in Hlog, Hout. simpl in Hlog.
  repeat split; try assumption.
  - rewrite Hlog. destruct (fst run); [| exact Hout].
    exists []. rewrite Hout. reflexivity.
  - intros u Hu. rewrite Hlog. rewrite Hu in Hout. exact Hout.
Qed.

(** C7, amended.  The notebook never passes or assigns the status or the
    category of a rule.  In a run against any service, and whatever the
    constructors of the SDK put in the two fields, every rule sent either
    has them exactly as its constructor gave them, or is a rule an earlier
    response of the service carried, sent back as received; and assigning
    the isolation mode leaves the rules of the workspace as they are. *)
Theorem status_and_category_not_touched :
  (forall (now : string) (r : Remote),
      relayed as_constructed []
              (log (snd (notebook now (initial_world r)))))
  /\ (forall ws mode w,
        match fst (set_isolation_mode ws mode w) with
        | Returned ws' => rules_of ws' = rules_of ws
        | Raised _ => True
        end).
Proof.
  split.
  - intros now r. apply (notebook_relays now (initial_world r)). exact I.
  - intros ws mode w. unfold set_isolation_mode, rules_of.
    destruct (managed_network ws); reflexivity.
Qed.

End NotebookRun.

(** ** The sweep-job document *)

(** C10.  The sweep-job document is well formed: the uniform distribution
    of [learning_rate] has [min_value] 0.01 below [max_value] 0.9, every
    distribution of the search space is in order, and the limits allow 10
    concurrent trials within a budget of 20. *)
Theorem sweep_job_well_formed :
  SweepJob.lookup "learning_rate" (SweepJob.search_space SweepJob.sweep_job)
  = Some (SweepJob.uniform 0.01 0.9)
  /\ (0.01 < 0.9)%Q
  /\ SweepJob.search_space_ok (SweepJob.search_space SweepJob.sweep_job)
  /\ SweepJob.max_concurrent_trials (SweepJob.limits SweepJob.sweep_job) = 10%Z
  /\ SweepJob.max_total_trials (SweepJob.limits SweepJob.sweep_job) = 20%Z
  /\ SweepJob.limits_ok (SweepJob.limits SweepJob.sweep_job).
Proof.
  unfold SweepJob.limits_ok. simpl.
  repeat split; try reflexivity; discriminate.
Qed.

(** ** Runs against the in-memory service *)

Example notebook_memory_run :
  let run := notebook (svc := memory_service) "202301011200"
               (initial_world (svc := memory_service) None) in
  fst run = Returned tt
  /\ issued (log (snd run)) = notebook_order
  /\ remote (snd run) = None
  /\ length (stdout (snd run)) = 4.
Proof. vm_compute. repeat split. Qed.

(** Without a workspace the fetch of cell 1.5 fails and the cell stops
    there: the update is never begun. *)
Example cell_1_5_memory_failure :
  let run := @cell_1_5 memory_service "202301011200"
               (@initial_world memory_service None) in
  fst run = Raised (ServiceError ("ResourceNotFound" : @Failure memory_service))
  /\ issued (log (snd run)) = [OpWorkspaceGet].
Proof. vm_compute. split; reflexivity. Qed.

(** The update of cell 1.5 carries the fetched workspace with the new
    mode. *)
Example cell_1_5_memory_update :
  let ws :=
    mkWorkspace "mlw" "eastus" (Some (mkManagedNetwork ALLOW_INTERNET_OUTBOUND []))
                (Some "storage") in
  let run := @cell_1_5 memory_service "" (@initial_world memory_service (Some ws)) in
  remote (snd run)
  = Some (mkWorkspace "mlw" "eastus"
            (Some (mkManagedNetwork ALLOW_ONLY_APPROVED_OUTBOUND []))
            (Some "storage")).
Proof. vm_compute. reflexivity. Qed.

Lemma notebook_sequential_witness :
  let run := notebook (svc := memory_service) "202301011200"
               (initial_world (svc := memory_service) None) in
  peak_in_flight [] (log (snd run)) <= 1
  /\ issued (log (snd run)) = notebook_order.
Proof.
  intros run.
  destruct (notebook_sequential (svc := memory_service) "202301011200" None)
    as (_ & Hpeak & _ & _ & _ & Hall).
  split; [exact Hpeak |].
  apply (Hall tt). vm_compute. reflexivity.
Defined.

(** * Further properties of the notebook *)

(** ** The name of the workspace *)

Lemma digit_inj (a b : N) :
  (a < 10)%N -> (b < 10)%N -> digit a = digit b -> a = b.
Proof.
  unfold digit. intros Ha Hb H.
  apply (f_equal Ascii.N_of_ascii) in H.
  rewrite !Ascii.N_ascii_embedding in H by lia. lia.
Qed.

Lemma two_digits_inj (a b : N) (s1 s2 : string) :
  (a < 100)%N -> (b < 100)%N ->
  two_digits a s1 = two_digits b s2 -> a = b /\ s1 = s2.
Proof.
  unfold two_digits. intros Ha Hb H. injection H as H1 H2 H3.
  apply digit_inj in H1; [| zify; Z.to_euclidean_division_equations; lia ..].
  apply digit_inj in H2; [| zify; Z.to_euclidean_division_equations; lia ..].
  split; [| exact H3]. zify. Z.to_euclidean_division_equations. lia.
Qed.

Lemma four_digits_inj (a b : N) (s1 s2 : string) :
  (a < 10000)%N -> (b < 10000)%N ->
  four_digits a s1 = four_digits b s2 -> a = b /\ s1 = s2.
Proof.
  unfold four_digits. intros Ha Hb H. injection H as H1 H2 H3 H4 H5.
  apply digit_inj in H1; [| zify; Z.to_euclidean_division_equations; lia ..].
  apply digit_inj in H2; [| zify; Z.to_euclidean_division_equations; lia ..].
  apply digit_inj in H3; [| zify; Z.to_euclidean_division_equations; lia ..].
  apply digit_inj in H4; [| zify; Z.to_euclidean_division_equations; lia ..].
  split; [| exact H5]. zify. Z.to_euclidean_division_equations. lia.
Qed.

Lemma append_inj_l (p s1 s2 : string) :
  (p ++ s1)%string = (p ++ s2)%string -> s1 = s2.
Proof.
  induction p as [| c p IH]; simpl; intros H; [exact H |].
  injection H as H. exact (IH H).
Qed.

(** X8.  The workspace name of cell 1.4 tells two moments apart exactly
    when they differ in year, month, day, hour or minute: two runs within
    the same minute ask for the same name. *)
Theorem workspace_name_unique_to_the_minute :
  forall t1 t2 : datetime,
    datetime_ok t1 -> datetime_ok t2 ->
    (mvnet_workspace_name (strftime_YmdHM t1)
     = mvnet_workspace_name (strftime_YmdHM t2)
     <-> same_minute t1 t2).
Proof.
  intros t1 t2 H1 H2. unfold datetime_ok in H1, H2. split.
  - unfold mvnet_workspace_name. intros H. apply append_inj_l in H.
    unfold strftime_YmdHM in H.
    apply four_digits_inj in H; [| lia ..]. destruct H as [Hy H].
    apply two_digits_inj in H; [| lia ..]. destruct H as [Hm H].
    apply two_digits_inj in H; [| lia ..]. destruct H as [Hd H].
    apply two_digits_inj in H; [| lia ..]. destruct H as [Hh H].
    apply two_digits_inj in H; [| lia ..]. destruct H as [Hmin _].
    repeat split; assumption.
  - intros (Hy & Hm & Hd & Hh & Hmin). unfold strftime_YmdHM.
    now rewrite Hy, Hm, Hd, Hh, Hmin.
Qed.

Lemma workspace_name_unique_to_the_minute_witness :
  mvnet_workspace_name (strftime_YmdHM (mkDatetime 2023 1 1 12 0 5))
  = mvnet_workspace_name (strftime_YmdHM (mkDatetime 2023 1 1 12 0 59))
  /\ mvnet_workspace_name (strftime_YmdHM (mkDatetime 2023 1 1 12 0 5))
     = "mlw-mvnet-prod-202301011200".
Proof.
  split; [| reflexivity].
  apply (proj2 (workspace_name_unique_to_the_minute
                  (mkDatetime 2023 1 1 12 0 5) (mkDatetime 2023 1 1 12 0 59)
                  ltac:(unfold datetime_ok; simpl; lia)
                  ltac:(unfold datetime_ok; simpl; lia))).
  repeat split.
Defined.

(** ** Cell 1.5 *)

Section FetchAndUpdate.

Context {svc : ManagementService} {defaults : RuleDefaults}.

Lemma bind_exchange {A B} (req : Request A) (f : A -> Client B) (w : World) :
  bind (p <- begin_operation req ;; result p) f w
  = match fst (serve A req (remote w)) with
    | inr a => f a (exchanged req w)
    | inl e => (Raised (ServiceError e), exchanged req w)
    end.
Proof.
  unfold exchanged. unfold bind at 1. rewrite exchange_run. simpl.
  destruct (fst (serve A req (remote w))); reflexivity.
Qed.

Lemma exchanged_log {A} (req : Request A) (w : World) :
  log (exchanged req w)
  = log w ++ [Started (next_poller w) req;
              Completed (next_poller w) req (fst (serve A req (remote w)))].
Proof. unfold exchanged. rewrite exchange_run. reflexivity. Qed.

(** X2.  When the workspace that cell 1.5 fetches has no managed network,
    the assignment of the isolation mode raises [AttributeError]: the fetch
    is the only exchange of the cell, no update is begun, and nothing is
    printed. *)
Theorem cell_1_5_without_network :
  forall (now : string) (w : World) (ws : Workspace) (r1 : Remote),
    serve Workspace (WorkspaceGet (mvnet_workspace_name now)) (remote w)
    = (inr ws, r1) ->
    managed_network ws = None ->
    fst (cell_1_5 now w) = Raised (AttributeError "isolation_mode")
    /\ issued (log (snd (cell_1_5 now w))) = issued (log w) ++ [OpWorkspaceGet]
    /\ remote (snd (cell_1_5 now w)) = r1
    /\ stdout (snd (cell_1_5 now w)) = stdout w.
Proof.
  intros now w ws r1 Hget Hnone.
  assert (Hrun : cell_1_5 now w
                 = (Raised (AttributeError "isolation_mode"),
                    exchanged (WorkspaceGet (mvnet_workspace_name now)) w)).
  { unfold cell_1_5, workspaces_get. rewrite bind_exchange, Hget. simpl.
    unfold bind, set_isolation_mode. rewrite Hnone. reflexivity. }
  rewrite Hrun. simpl. rewrite exchanged_log, issued_app.
  unfold exchanged. rewrite exchange_run, Hget. simpl. auto.
Qed.

(** X4.  When the fetched workspace has a managed network, the update that
    cell 1.5 begins carries the fetched workspace with the isolation mode
    replaced and everything else (name, location, rules, storage account)
    as fetched; the value the cell leaves in [ws_mvnet] is that workspace,
    whatever the service answers, and the answer is what is printed. *)
Theorem cell_1_5_update :
  forall (now : string) (w : World) (ws : Workspace) (mn : ManagedNetwork)
         (r1 : Remote),
    serve Workspace (WorkspaceGet (mvnet_workspace_name now)) (remote w)
    = (inr ws, r1) ->
    managed_network ws = Some mn ->
    let sent :=
      mkWorkspace (ws_name ws) (location ws)
        (Some (mkManagedNetwork ALLOW_ONLY_APPROVED_OUTBOUND (outbound_rules mn)))
        (storage_account ws) in
    let answer := fst (serve Workspace (WorkspaceUpdate sent) r1) in
    log (snd (cell_1_5 now w))
    = log w ++ [Started (next_poller w) (WorkspaceGet (mvnet_workspace_name now));
                Completed (next_poller w)
                          (WorkspaceGet (mvnet_workspace_name now)) (inr ws);
                Started (S (next_poller w)) (WorkspaceUpdate sent);
                Completed (S (next_poller w)) (WorkspaceUpdate sent) answer]
    /\ match answer with
       | inr aoao_ws =>
           fst (cell_1_5 now w) = Returned sent
           /\ stdout (snd (cell_1_5 now w))
              = stdout w ++ [PrintedWorkspace aoao_ws]
       | inl f =>
           fst (cell_1_5 now w) = Raised (ServiceError f)
           /\ stdout (snd (cell_1_5 now w)) = stdout w
       end.
Proof.
  intros now w ws mn r1 Hget Hmn sent answer.
  set (w1 := exchanged (WorkspaceGet (mvnet_workspace_name now)) w).
  assert (Hw1 : remote w1 = r1 /\ next_poller w1 = S (next_poller w)
                /\ stdout w1 = stdout w
                /\ log w1 = log w ++
                     [Started (next_poller w)
                              (WorkspaceGet (mvnet_workspace_name now));
                      Completed (next_poller w)
                                (WorkspaceGet (mvnet_workspace_name now))
                                (inr ws)]).
  { unfold w1, exchanged. rewrite exchange_run, Hget. simpl. auto. }
  destruct Hw1 as (Hr1 & Hn1 & Hout1 & Hlog1).
  assert (Hrun : cell_1_5 now w
                 = match answer with
                   | inr aoao_ws =>
                       (Returned sent,
                        let w2 := exchanged (WorkspaceUpdate sent) w1 in
                        mkWorld (remote w2) (in_flight w2) (next_poller w2)
                                (log w2) (stdout w2 ++ [PrintedWorkspace aoao_ws]))
                   | inl f =>
                       (Raised (ServiceError f),
                        exchanged (WorkspaceUpdate sent) w1)
                   end).
  { unfold cell_1_5, workspaces_get, workspaces_begin_update.
    rewrite bind_exchange, Hget. simpl. fold w1.
    unfold bind at 1. unfold set_isolation_mode. rewrite Hmn. simpl.
    fold sent. rewrite bind_exchange, Hr1. fold answer.
    destruct answer; reflexivity. }
  assert (Hw2 : log (exchanged (WorkspaceUpdate sent) w1)
                = log w ++
                    [Started (next_poller w)
                             (WorkspaceGet (mvnet_workspace_name now));
                     Completed (next_poller w)
                               (WorkspaceGet (mvnet_workspace_name now))
                               (inr ws);
                     Started (S (next_poller w)) (WorkspaceUpdate sent);
                     Completed (S (next_poller w)) (WorkspaceUpdate sent) answer]
                /\ stdout (exchanged (WorkspaceUpdate sent) w1) = stdout w).
  { rewrite exchanged_log, Hlog1, Hn1, Hr1, <- app_assoc. fold answer.
    split; [reflexivity |].
    unfold exchanged. rewrite exchange_run. simpl. exact Hout1. }
  destruct Hw2 as [Hlog2 Hout2].
  rewrite Hrun. destruct answer as [f | aoao_ws]; simpl.
  - auto.
  - rewrite Hout2. auto.
Qed.

End FetchAndUpdate.

Lemma cell_1_5_without_network_witness :
  let ws := mkWorkspace "mlw" "eastus" None (Some "storage") in
  fst (@cell_1_5 memory_service "" (@initial_world memory_service (Some ws)))
  = Raised (AttributeError "isolation_mode").
Proof.
  intros ws.
  apply (@cell_1_5_without_network memory_service ""
           (@initial_world memory_service (Some ws)) ws (Some ws));
    reflexivity.
Defined.

Lemma cell_1_5_update_witness :
  let ws :=
    mkWorkspace "mlw" "eastus"
      (Some (mkManagedNetwork ALLOW_INTERNET_OUTBOUND
               [PrivateEndpointDestination "pe" None "blob"]))
      (Some "storage") in
  length (log (snd (@cell_1_5 memory_service ""
                      (@initial_world memory_service (Some ws))))) = 4.
Proof.
  intros ws.
  destruct (@cell_1_5_update memory_service ""
              (@initial_world memory_service (Some ws)) ws
              (mkManagedNetwork ALLOW_INTERNET_OUTBOUND
                 [PrivateEndpointDestination "pe" None "blob"])
              (Some ws) eq_refl eq_refl) as [Hlog _].
  rewrite Hlog. reflexivity.
Defined.

(** ** Every path of the notebook *)

Section NotebookPaths.

Context {svc : ManagementService} {defaults : RuleDefaults}.

(** Runs the cells from an explicit world, one exchange after the other,
    splitting on what the service answers. *)
Ltac unfold_run :=
  cbv beta iota zeta delta
    [notebook cell_1_4 cell_1_5 cell_2 cell_3_1 cell_3_2 cell_3_3 cell_3_4
     cell_delete workspaces_get workspaces_begin_create
     workspaces_begin_update workspaces_begin_provision_network
     workspace_outbound_rules_begin_create workspaces_begin_delete
     bind begin_operation result print ret raise set_isolation_mode
     initial_world fst snd remote in_flight next_poller log stdout
     poller_id poller_request poller_outcome
     existsb filter Nat.eqb negb orb app].

Ltac answer :=
  match goal with
  | |- context [serve ?A ?req ?r] =>
      let out := fresh "out" in
      let r' := fresh "r" in
      destruct (serve A req r) as [out r'] eqn:?;
      destruct out as [? | ?]
  | |- context [match managed_network ?ws with _ => _ end] =>
      destruct (managed_network ws) as [? |] eqn:?
  end.

Ltac paths := unfold_run; repeat (answer; unfold_run).

(** X3.  The notebook handles no exception.  In a run against any service
    a failure can only be the last event of the history; a run that
    returns has seen no failure; a run that raises a service error raises
    the failure the service reported for the last exchange, as reported;
    the only other exception is the [AttributeError] of cell 1.5, raised
    after exchanges that all succeeded. *)
Theorem notebook_stops_at_failure :
  forall (now : string) (r : Remote),
    let run := notebook now (initial_world r) in
    clean (removelast (log (snd run))) = true
    /\ match fst run with
       | Returned _ => clean (log (snd run)) = true
       | Raised (ServiceError f) => last_failure (log (snd run)) = Some f
       | Raised (AttributeError _) => clean (log (snd run)) = true
       | Raised (ValidationException _) => False
       end.
Proof.
  intros now r run. subst run. paths. all: split; reflexivity.
Qed.

(** X1.  Every operation the notebook begins is about the workspace named
    in cell 1.4, except the update, which is about the workspace the
    service returned for that name. *)
Theorem notebook_one_workspace :
  forall (now : string) (r : Remote),
    Forall (fun t => fst t = OpWorkspaceUpdate
                     \/ snd t = mvnet_workspace_name now)
           (targets (log (snd (notebook now (initial_world r))))).
Proof.
  intros now r. paths.
  all: cbv [targets operation_of target_name ws_name];
    repeat (apply Forall_cons;
            [first [right; reflexivity | left; reflexivity] |]);
    apply Forall_nil.
Qed.

(** X6.  The rules the notebook asks to create are, in this order, the
    service-tag rule, the FQDN rule and the private-endpoint rule of cells
    3.1 to 3.3, or the first ones of them when the run stops early; no two
    of them have the same name. *)
Theorem notebook_rules_created :
  forall (now : string) (r : Remote),
    let created := rules_created (log (snd (notebook now (initial_world r)))) in
    (exists id rest,
        [ServiceTagDestination "servicetagrule" "AzureCloud" "TCP" "80, 8080";
         FqdnDestination "fqdnrule" "pypi.org";
         PrivateEndpointDestination "privateendpointrule" id "table"]
        = created ++ rest)
    /\ NoDup (rule_names created).
Proof.
  intros now r created. subst created. paths.
  all: cbv [rules_created rule_of_request app rule_names map name
            ServiceTagDestination FqdnDestination PrivateEndpointDestination].
  all: split;
    [ do 2 eexists; reflexivity
    | repeat constructor; simpl; intuition discriminate ].
  Unshelve. all: exact None.
Qed.

(** X5.  The private-endpoint rule of cell 3.3 points at the storage
    account of the workspace that cell 1.5 fetched: not at what the
    creation or the update answered, and not at the value typed in cell
    1.4. *)
Theorem notebook_private_endpoint_target :
  forall (now : string) (r : Remote),
    let history := log (snd (notebook now (initial_world r))) in
    Forall (fun rule =>
              exists ws,
                hd_error (fetched history) = Some ws
                /\ rule = PrivateEndpointDestination "privateendpointrule"
                            (storage_account ws) "table")
           (filter is_private_endpoint (rules_created history)).
Proof.
  intros now r history. subst history. paths.
  all: cbv [rules_created rule_of_request app filter is_private_endpoint dest
            ServiceTagDestination FqdnDestination PrivateEndpointDestination
            fetched fetched_by hd_error].
  all: repeat (apply Forall_cons;
               [eexists; split; [reflexivity |]; cbv [storage_account];
                reflexivity |]);
    apply Forall_nil.
Qed.

(** X7.  Whatever the notebook prints is an answer of the service, shown
    as received: the created workspace, the answer to the update (not the
    workspace the cell modified itself), the provisioning status and the
    workspace fetched last; at most these four. *)
Theorem notebook_prints_answers :
  forall (now : string) (r : Remote),
    let run := notebook now (initial_world r) in
    Forall (fun p => In p (answers (log (snd run)))) (stdout (snd run))
    /\ length (stdout (snd run)) <= 4.
Proof.
  intros now r run. subst run. paths.
  all: cbv [answers answer_of app length In]; split;
    [ repeat (apply Forall_cons; [tauto |]); apply Forall_nil | lia ].
Qed.

(** X9.  No rule is sent before the workspace is known to be in
    [ALLOW_ONLY_APPROVED_OUTBOUND] with its network provisioned: when the
    notebook has begun the creation of a rule, the service has accepted
    exactly one update, whose workspace has that isolation mode, and has
    provisioned the network of the workspace of cell 1.4. *)
Theorem notebook_rules_after_update :
  forall (now : string) (r : Remote),
    let history := log (snd (notebook now (initial_world r))) in
    rules_created history = []
    \/ (exists ws, updates_accepted history = [ws] /\ approved_only ws)
       /\ provisioned history = [mvnet_workspace_name now].
Proof.
  intros now r history. subst history. paths.
  all: cbv [rules_created rule_of_request updates_accepted updated_by
            provisioned provisioned_by app].
  all: first
    [ left; reflexivity
    | right; split;
      [ eexists; split;
        [reflexivity | eexists; split; reflexivity]
      | reflexivity ] ].
Qed.

(** X10.  The workspace is deleted exactly when everything before went
    well: a run that returns has completed one deletion, with success; a
    run that raises has completed none, or one that failed. *)
Theorem notebook_deletes_last :
  forall (now : string) (r : Remote),
    let run := notebook now (initial_world r) in
    match fst run with
    | Returned _ => deletions (log (snd run)) = [true]
    | Raised _ =>
        deletions (log (snd run)) = []
        \/ deletions (log (snd run)) = [false]
    end.
Proof.
  intros now r run. subst run. paths.
  all: cbv [deletions deleted_by app];
    first [reflexivity | left; reflexivity | right; reflexivity].
Qed.

(** ** What the client leaves to the service *)





End NotebookPaths.

(** ** Running the cells again *)

Section Rerun.

Context {svc : ManagementService} {defaults : RuleDefaults}.

(** X11.  Running all the cells a second time in the same kernel keeps the
    discipline of the first run: the history stays a sequence of completed
    exchanges with at most one operation in flight, and the operations
    begun are those of the cells twice over, or an initial part of them
    when a cell raises. *)
Theorem notebook_twice :
  forall (now1 now2 : string) (r : Remote),
    let run := (notebook now1 ;; notebook now2) (initial_world r) in
    Sequential (log (snd run))
    /\ peak_in_flight [] (log (snd run)) <= 1
    /\ in_flight (snd run) = []
    /\ match fst run with
       | Returned _ => issued (log (snd run)) = notebook_order ++ notebook_order
       | Raised _ =>
           exists rest,
             notebook_order ++ notebook_order = issued (log (snd run)) ++ rest
       end.
Proof.
  intros now1 now2 r run.
  assert (Hq : quiescent (snd run)).
  { apply (preserves_bind quiescent (notebook now1) (fun _ => notebook now2)).
    - apply notebook_quiescent.
    - intros _. apply notebook_quiescent.
    - split; [reflexivity | constructor]. }
  destruct Hq as [Hfly Hseq].
  destruct (Sequential_peak _ Hseq) as [Hpeak _].
  assert (He : emits (notebook now1 ;; notebook now2)
                     (notebook_order ++ notebook_order)).
  { eapply emits_bind;
      [apply notebook_emits | intros _; apply notebook_emits | reflexivity]. }
  destruct (He (initial_world r)) as [done [Hlog Hout]].
  fold run in Hlog, Hout. simpl in Hlog.
  repeat split; try assumption.
  rewrite Hlog. destruct (fst run); [exact Hout | exact Hout].
Qed.

End Rerun.

(** ** Runs that show what the client does not check *)






(** C7, as stated, fails with the constructors of the azure-ai-ml
    package: the three rules the notebook builds go out with the category
    user-defined, which no response of the service had carried. *)
Lemma status_and_category_counterexample :
  let history :=
    log (snd (notebook (svc := memory_service) "202301011200"
                (initial_world (svc := memory_service) None))) in
  map category (rules_created history)
  = [Some UserDefined; Some UserDefined; Some UserDefined]
  /\ ~ relayed unassigned [] history.
Proof.
  split; [vm_compute; reflexivity |].
  intros H. vm_compute in H.
  destruct H as (_ & _ & _ & _ & Hsent & _).
  destruct (Hsent _ (or_introl eq_refl)) as [[_ Hcategory] | []].
  discriminate Hcategory.
Qed.
